(** * vault_exporter: the collection adapter of [main.go]

    A shallow embedding of the exporter: the package-level metric
    descriptors, [NewExporter], [Describe], [bool2float], [Collect] and the
    startup path of [main].  Channel sends, log output, panics and the
    package variables are explicit in a small state monad, so that the frame
    and totality properties of the adapter can be stated. *)

From Stdlib Require Import String Ascii List Bool Arith ZArith Lia PrimFloat.
Import ListNotations.
Local Open Scope string_scope.

(** ** Go values *)

(** [float64]: the samples only ever hold the constants 0 and 1, kept as
    binary64 values. *)
Definition float64 : Set := PrimFloat.float.

(** The [error] interface: a value that renders as a message. *)
Record error : Set := { Error : string }.

(** ** Effects: channel sends, panics and process state

    A computation runs on the process state [S] and on the channel it was
    handed (the values delivered so far, oldest first), and either returns
    or panics. *)

Inductive Result (A : Type) : Type :=
| Returns (a : A)
| Panics (v : string).
Arguments Returns {A} a.
Arguments Panics {A} v.

Record Outcome (S T A : Type) : Type := mkOutcome {
  result : Result A;
  state : S;
  chan : list T
}.
Arguments mkOutcome {S T A} result state chan.
Arguments result {S T A} o.
Arguments state {S T A} o.
Arguments chan {S T A} o.

Definition Go (S T A : Type) : Type := S -> list T -> Outcome S T A.

Section GoMonad.
Context {S T : Type}.

Definition ret {A} (a : A) : Go S T A :=
  fun s ch => mkOutcome (Returns a) s ch.

Definition bind {A B} (m : Go S T A) (k : A -> Go S T B) : Go S T B :=
  fun s ch =>
    match m s ch with
    | mkOutcome (Returns a) s' ch' => k a s' ch'
    | mkOutcome (Panics v) s' ch' => mkOutcome (Panics v) s' ch'
    end.

(** [panic(v)] *)
Definition panic {A} (v : string) : Go S T A :=
  fun s ch => mkOutcome (Panics v) s ch.

(** [ch <- x] *)
Definition send (x : T) : Go S T unit :=
  fun s ch => mkOutcome (Returns tt) s (ch ++ [x]).

(** Reading and updating the process state. *)
Definition gets {A} (f : S -> A) : Go S T A :=
  fun s ch => mkOutcome (Returns (f s)) s ch.

Definition modify (f : S -> S) : Go S T unit :=
  fun s ch => mkOutcome (Returns tt) (f s) ch.
End GoMonad.

Declare Scope go_scope.
Delimit Scope go_scope with go.
Notation "x <- m ;; k" := (bind m (fun x => k))
  (at level 61, m at next level, right associativity) : go_scope.
Notation "m ;; k" := (bind m (fun _ => k))
  (at level 61, right associativity) : go_scope.
Local Open Scope go_scope.

(** ** The Prometheus client, as far as the exporter uses it *)

Module prometheus.

Definition Labels : Set := list (string * string).

(** Modelled from the spec: the vendored Prometheus client is not under
    src/.  A descriptor is the metric identity of the data model (fixed
    name, fixed label keys) together with the help text the source passes. *)
Record Desc : Set := mkDesc {
  fqName : string;
  help : string;
  constLabels : Labels;
  variableLabels : list string
}.

(** Modelled from the spec: [BuildFQName] of the vendored client joins the
    non-empty parts with an underscore (the exposed names are [vault_up],
    [vault_initialized], ...). *)
Definition BuildFQName (namespace subsystem name : string) : string :=
  if String.eqb name "" then ""
  else if negb (String.eqb namespace "") && negb (String.eqb subsystem "")
    then namespace ++ "_" ++ subsystem ++ "_" ++ name
  else if negb (String.eqb namespace "") then namespace ++ "_" ++ name
  else if negb (String.eqb subsystem "") then subsystem ++ "_" ++ name
  else name.

(** Modelled from the spec: [NewDesc] of the vendored client, which records
    its arguments ([nil] slices and maps are the empty ones). *)
Definition NewDesc (fqName help : string) (variableLabels : list string)
    (constLabels : Labels) : Desc :=
  mkDesc fqName help constLabels variableLabels.

Inductive ValueType : Set := CounterValue | GaugeValue | UntypedValue.

(** A constant metric: one sample. *)
Record Metric : Set := mkMetric {
  desc : Desc;
  valType : ValueType;
  val : float64;
  labelValues : list string
}.

(** The label pairs of a sample: its descriptor's keys bound to its
    values. *)
Definition labelPairs (m : Metric) : Labels :=
  combine (variableLabels (desc m)) (labelValues m).

Definition errInconsistentCardinality : error :=
  {| Error := "inconsistent label cardinality" |}.

(** Modelled from the spec: [NewConstMetric] of the vendored client, which
    fails when the number of label values differs from the number of
    variable label keys of the descriptor. *)
Definition NewConstMetric (d : Desc) (valueType : ValueType)
    (value : float64) (labelValues : list string) : Metric + error :=
  if Nat.eqb (length (variableLabels d)) (length labelValues)
  then inl (mkMetric d valueType value labelValues)
  else inr errInconsistentCardinality.

(** [MustNewConstMetric] panics where [NewConstMetric] fails. *)
Definition MustNewConstMetric {S T} (d : Desc) (valueType : ValueType)
    (value : float64) (labelValues : list string) : Go S T Metric :=
  match NewConstMetric d valueType value labelValues with
  | inl m => ret m
  | inr err => panic (Error err)
  end.

End prometheus.
Import prometheus.

(** ** The Vault client, as far as the exporter uses it *)

Module vault_api.

(** The client is an opaque handle for the exporter; only the address it
    was configured with is kept. *)
Record Client : Set := { Address : string }.

Record Sys : Set := { c : Client }.

Definition Client_Sys (cl : Client) : Sys := {| c := cl |}.

(** The fields of the health response that [Collect] reads. *)
Record HealthResponse : Set := {
  Initialized : bool;
  Sealed : bool;
  Standby : bool;
  Version : string;
  ClusterName : string;
  ClusterID : string
}.

(** What the monitored server answers to a client at the instant of a
    scrape: a health response, or the error of the failed query.  The Go
    pair of a response and an error is kept as a sum: the client returns a
    response exactly when the error is [nil]. *)
Definition Upstream : Set := Client -> HealthResponse + error.

(** [Sys.Health()], one query against the upstream. *)
Definition Health (sys : Sys) (w : Upstream) : HealthResponse + error :=
  w (c sys).

End vault_api.
Import vault_api.

(** ** Logging *)

Module log.

Inductive Level : Set := InfoLevel | ErrorLevel | FatalLevel.

Record Entry : Set := { level : Level; message : string }.

(** [fmt.Sprintf] for a format with one [%v] verb applied to a value
    already rendered. *)
Fixpoint Sprintf (format arg : string) : string :=
  match format with
  | EmptyString => EmptyString
  | String "%"%char (String "v"%char rest) => arg ++ rest
  | String ch rest => String ch (Sprintf rest arg)
  end.

(** [fmt.Sprintln] without the final newline: operands separated by
    spaces. *)
Definition Sprintln (args : list string) : string := String.concat " " args.

Definition Infoln (args : list string) : Entry :=
  {| level := InfoLevel; message := Sprintln args |}.

Definition Errorf (format : string) (err : error) : Entry :=
  {| level := ErrorLevel; message := Sprintf format (Error err) |}.

Definition Fatalln (err : error) : Entry :=
  {| level := FatalLevel; message := Sprintln [Error err] |}.

Definition Fatal (err : error) : Entry :=
  {| level := FatalLevel; message := Error err |}.

End log.

(** ** Package [main] *)

Definition namespace : string := "vault".

(** The package-level variables: the seven descriptors. *)
Record Vars : Set := {
  up : Desc;
  initialized : Desc;
  sealed : Desc;
  standby : Desc;
  ver : Desc;
  clusterName : Desc;
  clusterID : Desc
}.

(** The [var ( ... )] block. *)
Definition package_vars : Vars := {|
  up := NewDesc (BuildFQName namespace "" "up")
          "Was the last query of Vault successful." [] [];
  initialized := NewDesc (BuildFQName namespace "" "initialized")
          "Is the Vault initialised (according to this node)." [] [];
  sealed := NewDesc (BuildFQName namespace "" "sealed")
          "Is the Vault node sealed." [] [];
  standby := NewDesc (BuildFQName namespace "" "standby")
          "Is this Vault node in standby." [] [];
  ver := NewDesc (BuildFQName namespace "" "version")
          "Version of this Vault node." ["version"] [];
  clusterName := NewDesc (BuildFQName namespace "" "cluster_name")
          "Cluster name according to this Vault node." ["cluster_name"] [];
  clusterID := NewDesc (BuildFQName namespace "" "cluster_id")
          "Cluster ID according to this Vault node." ["cluster_id"] []
|}.

(** [type Exporter struct], with its one field [client]. *)
Record Exporter : Set := { client : Client }.

(** What a method of the exporter can read or write: the package variables,
    the exporter its receiver points to, and the log. *)
Record State : Set := {
  vars : Vars;
  exporter : Exporter;
  logged : list log.Entry
}.

(** Reading a package variable. *)
Definition var {T} (v : Vars -> Desc) : Go State T Desc :=
  gets (fun s => v (vars s)).

(** Reading a field of the receiver. *)
Definition field {T A} (f : Exporter -> A) : Go State T A :=
  gets (fun s => f (exporter s)).

(** [log.Errorf(format, err)] *)
Definition log_Errorf {T} (format : string) (err : error) : Go State T unit :=
  modify (fun s => {| vars := vars s; exporter := exporter s;
                      logged := logged s ++ [log.Errorf format err] |}).

(** [NewExporter], given the outcome of
    [vault_api.NewClient(vault_api.DefaultConfig())]. *)
Definition NewExporter (newClient : Client + error) : Exporter + error :=
  match newClient with
  | inr err => inr err
  | inl cl => inl {| client := cl |}
  end.

(** [Exporter.Describe] *)
Definition Describe : Go State Desc unit :=
  d <- var up ;; send d ;;
  d <- var initialized ;; send d ;;
  d <- var sealed ;; send d ;;
  d <- var standby ;; send d ;;
  d <- var ver ;; send d ;;
  d <- var clusterName ;; send d ;;
  d <- var clusterID ;; send d.

Definition bool2float (b : bool) : float64 :=
  if b then 1%float else 0%float.

(** [Exporter.Collect], against the upstream [w]. *)
Definition Collect (w : Upstream) : Go State Metric unit :=
  cl <- field client ;;
  match Health (Client_Sys cl) w with
  | inr err =>
      d <- var up ;;
      m <- MustNewConstMetric d GaugeValue 0%float [] ;;
      send m ;;
      log_Errorf "Failted to collect health from Vault server: %v" err ;;
      ret tt
  | inl health =>
      d <- var up ;;
      m <- MustNewConstMetric d GaugeValue 1%float [] ;;
      send m ;;
      d <- var initialized ;;
      m <- MustNewConstMetric d GaugeValue
             (bool2float (Initialized health)) [] ;;
      send m ;;
      d <- var sealed ;;
      m <- MustNewConstMetric d GaugeValue (bool2float (Sealed health)) [] ;;
      send m ;;
      d <- var standby ;;
      m <- MustNewConstMetric d GaugeValue (bool2float (Standby health)) [] ;;
      send m ;;
      d <- var ver ;;
      m <- MustNewConstMetric d GaugeValue 1%float [Version health] ;;
      send m ;;
      d <- var clusterName ;;
      m <- MustNewConstMetric d GaugeValue 1%float [ClusterName health] ;;
      send m ;;
      d <- var clusterID ;;
      m <- MustNewConstMetric d GaugeValue 1%float [ClusterID health] ;;
      send m
  end.


(** ** Startup: registration, the HTTP routes and [main] *)

(** The default registry: the descriptors of the collectors registered so
    far. *)
Definition Registry : Set := list Desc.

(** Modelled from the spec: [Register] of the vendored client asks the
    collector for its descriptors and refuses one whose name is already
    taken, in the registry or among the collector's own. *)
Definition Register (collector : Go State Desc unit) (r : Registry)
    (s : State) : (Registry + error) * State :=
  let o := collector s [] in
  let names := map fqName (chan o) in
  if existsb (fun n => existsb (String.eqb n) (map fqName r)) names
     || negb (Nat.eqb (length (nodup string_dec names)) (length names))
  then (inr {| Error := "duplicate metrics collector registration attempted" |},
        state o)
  else (inl (r ++ chan o)%list, state o).

(** [func init()]: the build-information collector of the exporter is
    registered before [main] runs.  The collectors the client library
    registers for itself (Go runtime, process) are left out; their metrics
    are named [go_...] and [process_...]. *)
Definition init : Registry :=
  [NewDesc (BuildFQName "vault_exporter" "" "build_info")
     "A metric with a constant '1' value labeled by version, revision, branch, and goversion from which vault_exporter was built."
     ["version"; "revision"; "branch"; "goversion"] []].

(** The patterns of the default serve mux when [main] starts: package
    initialisers have installed the profiling routes (the blank import of
    [net/http/pprof]) and [/debug/vars] (package [expvar], which the
    Prometheus client imports). *)
Definition DefaultServeMux : list string :=
  ["/debug/pprof/"; "/debug/pprof/cmdline"; "/debug/pprof/profile";
   "/debug/pprof/symbol"; "/debug/pprof/trace"; "/debug/vars"].

(** [http.Handle] and [http.HandleFunc] panic on an empty pattern and on a
    pattern that is already routed. *)
Definition http_Handle (pattern : string) (mux : list string)
    : list string + string :=
  if String.eqb pattern "" then inr "http: invalid pattern"
  else if existsb (String.eqb pattern) mux
    then inr ("http: multiple registrations for " ++ pattern)
  else inl (mux ++ [pattern])%list.

(** What [main] is started with: the parsed flags, the build strings, and
    the outcomes of the two calls into the outside world whose result it
    inspects. *)
Record Env : Set := {
  listenAddress : string;
  metricsPath : string;
  versionInfo : string;
  buildContext : string;
  newClient : Client + error;
  listenAndServe : option error
}.

(** Where [main] ends up: the process has exited ([log.Fatal] and
    [log.Fatalln] exit with status 1), has panicked, or is serving scrapes
    ([http.ListenAndServe] has not returned). *)
Inductive Process : Set :=
| Exited (code : Z) (lg : list log.Entry)
| Panicked (v : string) (lg : list log.Entry)
| Serving (s : State) (registry : Registry) (mux : list string).

(** [func main()], from the first log line on. *)
Definition main (env : Env) : Process :=
  let lg := [log.Infoln ["Starting vault_exporter"; versionInfo env];
             log.Infoln ["Build context"; buildContext env]] in
  match NewExporter (newClient env) with
  | inr err => Exited 1 (lg ++ [log.Fatalln err])%list
  | inl e =>
    let s := {| vars := package_vars; exporter := e; logged := lg |} in
    match Register Describe init s with
    | (inr err, s) => Panicked (Error err) (logged s)
    | (inl registry, s) =>
      match http_Handle (metricsPath env) DefaultServeMux with
      | inr v => Panicked v (logged s)
      | inl mux =>
        match http_Handle "/" mux with
        | inr v => Panicked v (logged s)
        | inl mux =>
          let s := {| vars := vars s; exporter := exporter s;
                      logged := logged s ++
                        [log.Infoln ["Listening on"; listenAddress env]] |} in
          match listenAndServe env with
          | Some err => Exited 1 (logged s ++ [log.Fatal err])%list
          | None => Serving s registry mux
          end
        end
      end
    end
  end.

(** The state in which [main] registers the exporter, which is where
    [Describe] is called for the first time: the package variables as
    initialised, the exporter just built, the two startup lines logged. *)
Definition registration_state (env : Env) (e : Exporter) : State :=
  {| vars := package_vars;
     exporter := e;
     logged := [log.Infoln ["Starting vault_exporter"; versionInfo env];
                log.Infoln ["Build context"; buildContext env]] |}.

(** The states in which the exposition layer calls the adapter: the one
    [main] starts serving in, and those left by earlier [Describe] and
    [Collect] calls, whatever the upstream answered and whatever channel
    they were handed.  The call of [Describe] that [main] makes when it
    registers the exporter comes before them, in [registration_state]. *)
Inductive Reachable : State -> Prop :=
| reach_main env s registry mux :
    main env = Serving s registry mux -> Reachable s
| reach_Describe s ch :
    Reachable s -> Reachable (state (Describe s ch))
| reach_Collect w s ch :
    Reachable s -> Reachable (state (Collect w s ch)).

(** The states a serving process goes through from the state [s0] it
    started serving in: any number of [Describe] and [Collect] calls. *)
Inductive Steps (s0 : State) : State -> Prop :=
| steps_start : Steps s0 s0
| steps_Describe s ch :
    Steps s0 s -> Steps s0 (state (Describe s ch))
| steps_Collect w s ch :
    Steps s0 s -> Steps s0 (state (Collect w s ch)).

(** ** The catalog and the samples, written out *)

Definition desc_up : Desc :=
  mkDesc "vault_up" "Was the last query of Vault successful." [] [].
Definition desc_initialized : Desc :=
  mkDesc "vault_initialized"
    "Is the Vault initialised (according to this node)." [] [].
Definition desc_sealed : Desc :=
  mkDesc "vault_sealed" "Is the Vault node sealed." [] [].
Definition desc_standby : Desc :=
  mkDesc "vault_standby" "Is this Vault node in standby." [] [].
Definition desc_version : Desc :=
  mkDesc "vault_version" "Version of this Vault node." [] ["version"].
Definition desc_cluster_name : Desc :=
  mkDesc "vault_cluster_name" "Cluster name according to this Vault node."
    [] ["cluster_name"].
Definition desc_cluster_id : Desc :=
  mkDesc "vault_cluster_id" "Cluster ID according to this Vault node."
    [] ["cluster_id"].

Definition catalog : list Desc :=
  [desc_up; desc_initialized; desc_sealed; desc_standby;
   desc_version; desc_cluster_name; desc_cluster_id].

(** A gauge sample. *)
Definition gauge (d : Desc) (v : float64) (lvs : list string) : Metric :=
  mkMetric d GaugeValue v lvs.

(** The default environment: default flags, a client for the default
    address, a server that is listening. *)
Definition env_default : Env := {|
  listenAddress := ":9107";
  metricsPath := "/metrics";
  versionInfo := "(version=, branch=, revision=)";
  buildContext := "(go=go1.9, user=, date=)";
  newClient := inl {| Address := "https://127.0.0.1:8200" |};
  listenAndServe := None
|}.

(** Looking a sample up by the name of its metric. *)
Definition sample_of (name : string) (l : list Metric) : option Metric :=
  find (fun m => String.eqb (fqName (desc m)) name) l.

(** How many samples of a metric a scrape holds. *)
Definition count_of (name : string) (l : list Metric) : nat :=
  length (filter (fun m => String.eqb (fqName (desc m)) name) l).

(** The contract of [collect()] in the words of the specification: on
    failure only [up=0]; on success [up=1] and then one sample per
    remaining catalog entry. *)
Definition spec_collect (r : HealthResponse + error) : list Metric :=
  match r with
  | inr _ => [gauge desc_up 0%float []]
  | inl h =>
      [gauge desc_up 1%float [];
       gauge desc_initialized (if Initialized h then 1 else 0)%float [];
       gauge desc_sealed (if Sealed h then 1 else 0)%float [];
       gauge desc_standby (if Standby h then 1 else 0)%float [];
       gauge desc_version 1%float [Version h];
       gauge desc_cluster_name 1%float [ClusterName h];
       gauge desc_cluster_id 1%float [ClusterID h]]
  end.

(** The answer the exporter of state [s] gets from the upstream [w]. *)
Definition query (s : State) (w : Upstream) : HealthResponse + error :=
  Health (Client_Sys (client (exporter s))) w.

(** One scrape: the samples [Collect] sends on a fresh channel. *)
Definition scrape (w : Upstream) (s : State) : list Metric :=
  chan (Collect w s []).

(** One description: the descriptors [Describe] sends on a fresh channel. *)
Definition described (s : State) : list Desc :=
  chan (Describe s []).

(** The identity of a metric in the data model: its name and label keys. *)
Definition identity (d : Desc) : string * list string :=
  (fqName d, variableLabels d).

(** The state [main] starts serving in under [env_default]. *)
Definition state_default : State := {|
  vars := package_vars;
  exporter := {| client := {| Address := "https://127.0.0.1:8200" |} |};
  logged :=
    [{| log.level := log.InfoLevel;
        log.message := "Starting vault_exporter (version=, branch=, revision=)" |};
     {| log.level := log.InfoLevel;
        log.message := "Build context (go=go1.9, user=, date=)" |};
     {| log.level := log.InfoLevel; log.message := "Listening on :9107" |}]
|}.

(** Upstreams used as concrete inputs. *)
Definition health_example : HealthResponse := {|
  Initialized := true; Sealed := false; Standby := true;
  Version := "1.2.3"; ClusterName := "prod-a"; ClusterID := "abc-1"
|}.

Definition health_blank : HealthResponse := {|
  Initialized := false; Sealed := false; Standby := false;
  Version := ""; ClusterName := ""; ClusterID := ""
|}.

Definition upstream_healthy : Upstream := fun _ => inl health_example.

Definition upstream_blank : Upstream := fun _ => inl health_blank.

Definition err_refused : error :=
  {| Error := "dial tcp 127.0.0.1:8200: connect: connection refused" |}.

Definition err_status : error :=
  {| Error := "Error making API request. Code: 500" |}.

Definition upstream_refused : Upstream := fun _ => inr err_refused.

Definition upstream_500 : Upstream := fun _ => inr err_status.

(** An environment in which the client is built but the listen address is
    taken. *)
Definition err_in_use : error :=
  {| Error := "listen tcp :9107: bind: address already in use" |}.

Definition env_in_use : Env := {|
  listenAddress := ":9107";
  metricsPath := "/metrics";
  versionInfo := "(version=, branch=, revision=)";
  buildContext := "(go=go1.9, user=, date=)";
  newClient := inl {| Address := "https://127.0.0.1:8200" |};
  listenAndServe := Some err_in_use
|}.

(** An environment in which the client cannot be built. *)
Definition err_config : error :=
  {| Error := "parse %zz: invalid URL escape" |}.

Definition env_misconfigured : Env := {|
  listenAddress := ":9107";
  metricsPath := "/metrics";
  versionInfo := "(version=, branch=, revision=)";
  buildContext := "(go=go1.9, user=, date=)";
  newClient := inr err_config;
  listenAndServe := None
|}.

(** The state a failed scrape leaves: one more log line. *)
Definition logged_failure (s : State) (err : error) : State :=
  {| vars := vars s; exporter := exporter s;
     logged := (logged s ++
       [{| log.level := log.ErrorLevel;
           log.message :=
             "Failted to collect health from Vault server: " ++ Error err |}])%list
  |}.

(** The log lines [main] writes before it builds the exporter. *)
Definition startup_log (env : Env) : list log.Entry :=
  [{| log.level := log.InfoLevel;
      log.message := "Starting vault_exporter " ++ versionInfo env |};
   {| log.level := log.InfoLevel;
      log.message := "Build context " ++ buildContext env |}].

(** ** Runs of the serving process *)

(** The line a failed scrape adds to the log. *)
Definition failure_line (err : error) : log.Entry :=
  {| log.level := log.ErrorLevel;
     log.message :=
       "Failted to collect health from Vault server: " ++ Error err |}.

(** A run of scrapes: one [Collect] per scrape, each on a fresh channel and
    against the upstream as it answers at that scrape. *)
Fixpoint scrapes (ws : list Upstream) (s : State) : State :=
  match ws with
  | [] => s
  | w :: ws' => scrapes ws' (state (Collect w s []))
  end.

(** The errors among the answers the exporter of [s] gets from the upstreams
    [ws], in order. *)
Definition failures (ws : list Upstream) (s : State) : list error :=
  flat_map (fun w => match query s w with
                     | inr err => [err]
                     | inl _ => []
                     end) ws.

(** The line [main] logs before it listens. *)
Definition listening_line (env : Env) : log.Entry :=
  {| log.level := log.InfoLevel;
     log.message := "Listening on " ++ listenAddress env |}.

(** * mkpost: [vendor/golang.org/x/sys/unix/mkpost.go]

    The post-processor of generated type definitions: its environment
    check, its rewriting passes and its output.  The regular-expression
    engine and the Go formatter are standard-library code; they are
    parameters of the model. *)

Module mkpost.

Definition newline : ascii := "010"%char.

(** [bytes.IndexByte(b, c)]: the index of the first [c] in [b], or -1. *)
Fixpoint IndexByte (b : string) (ch : ascii) : Z :=
  match b with
  | EmptyString => (-1)%Z
  | String a rest =>
      if Ascii.eqb a ch then 0%Z
      else let i := IndexByte rest ch in
           if (i <? 0)%Z then (-1)%Z else (i + 1)%Z
  end.

Fixpoint drop (n : nat) (b : string) : string :=
  match n, b with
  | O, _ => b
  | S n', String _ rest => drop n' rest
  | S _, EmptyString => EmptyString
  end.

(** [b[i:]], which panics unless [0 <= i <= len(b)]. *)
Definition slice_from (b : string) (i : Z) : option string :=
  if (i <? 0)%Z || (Z.of_nat (String.length b) <? i)%Z then None
  else Some (drop (Z.to_nat i) b).

(** What the process wrote to standard error: plain writes, and the error
    [log.Fatal] prints before it exits. *)
Inductive Stderr : Set :=
| WriteString (s : string)
| Fatal (err : error).

(** A finished run: the writes to standard output and standard error, and
    the exit status (0 on return, 1 from [os.Exit(1)] and [log.Fatal], 2 on
    a panic). *)
Record Run : Set := { stdout : list string; stderr : list Stderr; status : Z }.

(** What a run is started with: the environment variables ([os.Getenv]
    gives the empty string for an unset one) and the outcome of reading all
    of standard input. *)
Record Env : Set := {
  Getenv : string -> string;
  stdin : string + error
}.

(** The architecture [main] works for: [GOARCH_TARGET] if it is set, else
    [GOARCH]. *)
Definition target_arch (env : Env) : string :=
  if String.eqb (Getenv env "GOARCH_TARGET") "" then Getenv env "GOARCH"
  else Getenv env "GOARCH_TARGET".

(** The header [main] puts in place of the cgo command line. *)
Definition header (goarch goos : string) : string :=
  "$1 | go run mkpost.go" ++ String newline
  ("// Code generated by the command above; see README.md. DO NOT EDIT."
   ++ String newline (String newline
  ("// +build " ++ goarch ++ "," ++ goos))).

Definition refusal : Run := {|
  stdout := [];
  stderr :=
    [WriteString
       ("In the new build system, mkpost should not be called directly."
        ++ String newline "");
     WriteString ("See README.md" ++ String newline "")];
  status := 1
|}.

Section Tool.

(** [regexp.MustCompile(pattern).ReplaceAll(src, repl)] *)
Variable ReplaceAll : string -> string -> string -> string.

(** [format.Source] *)
Variable format_Source : string -> string + error.

(** The rewriting passes up to the removal of the first line. *)
Definition passes (goarch goos b : string) : string :=
  let b := ReplaceAll "type Ptrace((Psw|Fpregs|Per) struct {\s*})" b "" in
  let b := ReplaceAll "(Control_regs)\s+\[0\]uint64" b "_ [0]uint64" in
  let b := ReplaceAll "X__glibc\S*" b "_" in
  let b :=
    ReplaceAll
      "((Sys|Node|Domain)name|Release|Version|Machine)(\s+)\[(\d+)\]u?int8"
      b "$1$3[$4]byte" in
  let b := ReplaceAll "X__spare\S*" b "_" in
  if String.eqb goarch "s390x" && String.eqb goos "linux"
  then
    let b := ReplaceAll "Pad_cgo_\d+" b "_" in
    ReplaceAll "\bX_\S+" b "_"
  else b.

(** [func main()] *)
Definition main (env : Env) : Run :=
  let goos := Getenv env "GOOS" in
  let goarch := Getenv env "GOARCH_TARGET" in
  let goarch := if String.eqb goarch "" then Getenv env "GOARCH" else goarch in
  if String.eqb goos "linux" && negb (String.eqb goarch "sparc64")
     && negb (String.eqb (Getenv env "GOLANG_SYS_BUILD") "docker")
  then refusal
  else
    match stdin env with
    | inr err => {| stdout := []; stderr := [Fatal err]; status := 1 |}
    | inl b =>
        let b := passes goarch goos b in
        match slice_from b (IndexByte b newline + 1) with
        | None => {| stdout := []; stderr := []; status := 2 |}
        | Some b =>
            let b := ReplaceAll "(cgo -godefs .*)" b (header goarch goos) in
            match format_Source b with
            | inr err =>
                {| stdout := []; stderr := [Fatal err]; status := 1 |}
            | inl b => {| stdout := [b]; stderr := []; status := 0 |}
            end
        end
    end.

End Tool.

(** An engine that matches nowhere and a formatter that changes nothing,
    and environments, as concrete inputs. *)
Definition no_match (pattern src repl : string) : string := src.

Definition keep (b : string) : string + error := inl b.

Definition getenv_of (l : list (string * string)) (k : string) : string :=
  match find (fun kv => String.eqb (fst kv) k) l with
  | Some kv => snd kv
  | None => ""
  end.

Definition env_docker : Env := {|
  Getenv := getenv_of [("GOOS", "linux"); ("GOARCH", "amd64");
                       ("GOLANG_SYS_BUILD", "docker")];
  stdin := inl ("// warning" ++ String newline "package unix")
|}.

Definition env_direct : Env := {|
  Getenv := getenv_of [("GOOS", "linux"); ("GOARCH", "amd64")];
  stdin := inl ("// warning" ++ String newline "package unix")
|}.

Definition env_cross : Env := {|
  Getenv := getenv_of [("GOOS", "linux"); ("GOARCH", "amd64");
                       ("GOARCH_TARGET", "s390x");
                       ("GOLANG_SYS_BUILD", "docker")];
  stdin := inl ("// warning" ++ String newline "package unix")
|}.

Definition env_cross_host : Env := {|
  Getenv := getenv_of [("GOOS", "linux"); ("GOARCH", "arm64");
                       ("GOARCH_TARGET", "s390x");
                       ("GOLANG_SYS_BUILD", "docker")];
  stdin := inl ("// warning" ++ String newline "package unix")
|}.

End mkpost.

(** * Properties *)

(** ** Running the adapter *)

Lemma package_vars_catalog :
  package_vars =
  {| up := desc_up; initialized := desc_initialized; sealed := desc_sealed;
     standby := desc_standby; ver := desc_version;
     clusterName := desc_cluster_name; clusterID := desc_cluster_id |}.
Proof. reflexivity. Qed.

(** [Describe] sends the catalog and touches nothing else. *)
Lemma Describe_run (s : State) (ch : list Desc) :
  vars s = package_vars ->
  Describe s ch = mkOutcome (Returns tt) s (ch ++ catalog)%list.
Proof.
  intros Hv. unfold Describe, bind, var, gets, send. cbn.
  rewrite Hv. cbn. rewrite <- !app_assoc. reflexivity.
Qed.

Lemma append_empty_r (x : string) : x ++ "" = x.
Proof.
  induction x as [| a x IH]; cbn; [reflexivity | rewrite IH; reflexivity].
Qed.

(** The line a failed scrape logs. *)
Lemma Errorf_collect (err : error) :
  log.Errorf "Failted to collect health from Vault server: %v" err =
  {| log.level := log.ErrorLevel;
     log.message :=
       "Failted to collect health from Vault server: " ++ Error err |}.
Proof.
  unfold log.Errorf. cbn. rewrite append_empty_r. reflexivity.
Qed.

Lemma Collect_run_failure (w : Upstream) (s : State) (ch : list Metric)
    (err : error) :
  vars s = package_vars ->
  query s w = inr err ->
  Collect w s ch =
  mkOutcome (Returns tt) (logged_failure s err)
    (ch ++ [gauge desc_up 0%float []])%list.
Proof.
  intros Hv Hw. unfold query in Hw.
  unfold Collect, bind, field, var, gets, log_Errorf, modify. cbn.
  rewrite Hw, Hv, Errorf_collect. reflexivity.
Qed.

Lemma Collect_run_success (w : Upstream) (s : State) (ch : list Metric)
    (health : HealthResponse) :
  vars s = package_vars ->
  query s w = inl health ->
  Collect w s ch =
  mkOutcome (Returns tt) s (ch ++ spec_collect (inl health))%list.
Proof.
  intros Hv Hw. destruct s as [v e l]. cbn in Hv. subst v.
  unfold query in Hw. cbn in Hw.
  unfold Collect, bind, field, var, gets, send. cbn. rewrite Hw. cbn.
  rewrite <- !app_assoc. cbn.
  destruct (Initialized health), (Sealed health), (Standby health);
    reflexivity.
Qed.

Lemma Collect_run (w : Upstream) (s : State) (ch : list Metric) :
  vars s = package_vars ->
  let r := query s w in
  result (Collect w s ch) = Returns tt /\
  chan (Collect w s ch) = (ch ++ spec_collect r)%list /\
  vars (state (Collect w s ch)) = vars s /\
  exporter (state (Collect w s ch)) = exporter s.
Proof.
  intros Hv r. subst r.
  destruct (query s w) as [h|err] eqn:Hw.
  - rewrite (Collect_run_success w s ch h Hv Hw). repeat split.
  - rewrite (Collect_run_failure w s ch err Hv Hw). repeat split.
Qed.

(** ** The invariant of the serving process *)

Lemma Register_Describe (s : State) :
  vars s = package_vars ->
  Register Describe init s = (inl (init ++ catalog)%list, s).
Proof.
  intros Hv. unfold Register. rewrite (Describe_run s [] Hv). reflexivity.
Qed.

Lemma main_Serving (env : Env) (s : State) (registry : Registry)
    (mux : list string) :
  main env = Serving s registry mux ->
  vars s = package_vars /\
  newClient env = inl (client (exporter s)) /\
  listenAndServe env = None.
Proof.
  unfold main, NewExporter.
  destruct (newClient env) as [cl|err]; [|discriminate].
  rewrite Register_Describe by reflexivity.
  destruct (http_Handle (metricsPath env) DefaultServeMux) as [m1|v];
    [|discriminate].
  destruct (http_Handle "/" m1) as [m2|v]; [|discriminate].
  destruct (listenAndServe env) as [err|]; [discriminate|].
  intros H. injection H as <- _ _. cbn. repeat split.
Qed.

Lemma Reachable_vars (s : State) : Reachable s -> vars s = package_vars.
Proof.
  induction 1 as [env s registry mux Hmain | s ch _ IH | w s ch _ IH].
  - exact (proj1 (main_Serving _ _ _ _ Hmain)).
  - rewrite (Describe_run s ch IH). exact IH.
  - destruct (Collect_run w s ch IH) as (_ & _ & Hvars & _).
    rewrite Hvars. exact IH.
Qed.

Lemma Reachable_state_default : Reachable state_default.
Proof.
  apply (reach_main env_default state_default
           (init ++ catalog)%list (DefaultServeMux ++ ["/metrics"; "/"])%list).
  reflexivity.
Qed.

Lemma scrape_spec (w : Upstream) (s : State) :
  Reachable s -> scrape w s = spec_collect (query s w).
Proof.
  intros Hr. unfold scrape.
  destruct (Collect_run w s [] (Reachable_vars s Hr)) as (_ & Hc & _).
  exact Hc.
Qed.

(** The two gauge values are distinct. *)
Lemma one_ne_zero : 1%float <> 0%float.
Proof.
  intro H. apply (f_equal (fun x => PrimFloat.eqb x 1%float)) in H.
  vm_compute in H. discriminate.
Qed.

(** ** The failure branch *)

(** C1: when the upstream health query fails, whatever error it returned,
    [Collect] sends exactly one sample, the gauge [vault_up] with value 0 and
    no label, sends nothing else, logs the failure and returns normally; the
    samples of two failed scrapes are the same whatever the two errors
    were. *)
Theorem Collect_failure_only_up_zero (s : State) (w : Upstream)
    (ch : list Metric) (err : error) :
  Reachable s ->
  query s w = inr err ->
  Collect w s ch =
    {| result := Returns tt;
       state := logged_failure s err;
       chan := (ch ++
         [{| desc := {| fqName := "vault_up";
                       help := "Was the last query of Vault successful.";
                       constLabels := []; variableLabels := [] |};
             valType := GaugeValue;
             val := 0%float;
             labelValues := [] |}])%list |}
  /\ length (scrape w s) = 1
  /\ map labelPairs (scrape w s) = [[]]
  /\ forall (s' : State) (w' : Upstream) (err' : error),
       Reachable s' -> query s' w' = inr err' -> scrape w' s' = scrape w s.
Proof.
  intros Hr Hw.
  assert (Hs : scrape w s = [gauge desc_up 0%float []]).
  { rewrite (scrape_spec w s Hr), Hw. reflexivity. }
  split; [| split; [| split]].
  - exact (Collect_run_failure w s ch err (Reachable_vars s Hr) Hw).
  - rewrite Hs. reflexivity.
  - rewrite Hs. reflexivity.
  - intros s' w' err' Hr' Hw'.
    rewrite Hs, (scrape_spec w' s' Hr'), Hw'. reflexivity.
Qed.

Lemma Collect_failure_only_up_zero_witness :
  query state_default upstream_refused = inr err_refused /\
  scrape upstream_refused state_default = [gauge desc_up 0%float []] /\
  scrape upstream_500 state_default = scrape upstream_refused state_default.
Proof.
  pose proof (Collect_failure_only_up_zero state_default upstream_refused []
                err_refused Reachable_state_default eq_refl) as (H & _ & _ & Hsame).
  split; [reflexivity | split].
  - unfold scrape. rewrite H. reflexivity.
  - exact (Hsame state_default upstream_500 err_status
             Reachable_state_default eq_refl).
Defined.

(** ** The success branch *)

(** C2: when the upstream health query succeeds, [Collect] sends exactly
    seven samples and returns normally; the first is [vault_up] with value 1,
    the following six are one sample for each remaining catalog entry; a
    scrape holds exactly one [vault_up] sample, in the success branch and in
    the failure branch alike. *)
Theorem Collect_success_seven_samples (s : State) (w : Upstream)
    (health : HealthResponse) :
  Reachable s ->
  query s w = inl health ->
  result (Collect w s []) = Returns tt
  /\ length (scrape w s) = 7
  /\ hd_error (scrape w s) = Some (gauge desc_up 1%float [])
  /\ map desc (tl (scrape w s)) = tl catalog
  /\ count_of "vault_up" (scrape w s) = 1
  /\ forall (w' : Upstream) (err : error),
       query s w' = inr err -> count_of "vault_up" (scrape w' s) = 1.
Proof.
  intros Hr Hw.
  pose proof (Collect_run_success w s [] health (Reachable_vars s Hr) Hw) as Hc.
  assert (Hs : scrape w s = spec_collect (inl health)).
  { rewrite (scrape_spec w s Hr), Hw. reflexivity. }
  repeat split.
  - rewrite Hc. reflexivity.
  - rewrite Hs. reflexivity.
  - rewrite Hs. reflexivity.
  - rewrite Hs. reflexivity.
  - rewrite Hs. reflexivity.
  - intros w' err Hw'. rewrite (scrape_spec w' s Hr), Hw'. reflexivity.
Qed.

Lemma Collect_success_seven_samples_witness :
  query state_default upstream_healthy = inl health_example /\
  length (scrape upstream_healthy state_default) = 7 /\
  count_of "vault_up" (scrape upstream_healthy state_default) = 1 /\
  count_of "vault_up" (scrape upstream_refused state_default) = 1.
Proof.
  pose proof (Collect_success_seven_samples state_default upstream_healthy
                health_example Reachable_state_default eq_refl)
    as (_ & Hlen & _ & _ & Hup & Hdown).
  split; [reflexivity | split; [exact Hlen | split; [exact Hup |]]].
  exact (Hdown upstream_refused err_refused eq_refl).
Defined.

(** ** The catalog *)

(** [main] hands [Describe] to the registry in [registration_state]. *)
Lemma main_registers (env : Env) :
  main env =
  match NewExporter (newClient env) with
  | inr err =>
      Exited 1 (startup_log env ++ [log.Fatalln err])%list
  | inl e =>
    match Register Describe init (registration_state env e) with
    | (inr err, s) => Panicked (Error err) (logged s)
    | (inl registry, s) =>
      match http_Handle (metricsPath env) DefaultServeMux with
      | inr v => Panicked v (logged s)
      | inl mux =>
        match http_Handle "/" mux with
        | inr v => Panicked v (logged s)
        | inl mux =>
          match listenAndServe env with
          | Some err =>
              Exited 1 (logged s ++
                        [log.Infoln ["Listening on"; listenAddress env];
                         log.Fatal err])%list
          | None =>
              Serving {| vars := vars s; exporter := exporter s;
                         logged := logged s ++
                           [log.Infoln ["Listening on"; listenAddress env]] |}
                registry mux
          end
        end
      end
    end
  end.
Proof.
  unfold main. destruct (NewExporter (newClient env)) as [e|err];
    [| reflexivity].
  cbv zeta. fold (registration_state env e).
  destruct (Register Describe init (registration_state env e))
    as [[registry|err] s]; [| reflexivity].
  destruct (http_Handle (metricsPath env) DefaultServeMux) as [m1|v];
    [| reflexivity].
  destruct (http_Handle "/" m1) as [m2|v]; [| reflexivity].
  destruct (listenAndServe env) as [err|]; [| reflexivity].
  cbn [logged]. rewrite <- app_assoc. reflexivity.
Qed.

(** C3: [Describe] reads no upstream, returns normally and leaves the
    process state as it found it; wherever the package-level descriptors are
    the ones the [var] block built (which nothing in the program reassigns),
    it sends the same seven descriptors in the same order: up, initialized,
    sealed and standby without label keys, then version, cluster_name and
    cluster_id, each with the one label key of its own name.  That covers
    every call the program makes: the one [main] makes when it registers the
    exporter, before any scrape, and those made in any state of the serving
    process, however many [Describe] and [Collect] calls came before and
    whatever the upstream answered them. *)
Theorem Describe_fixed_catalog (s : State) (ch : list Desc) :
  vars s = package_vars ->
  Describe s ch =
    {| result := Returns tt; state := s; chan := (ch ++ catalog)%list |}
  /\ length (described s) = 7
  /\ map identity (described s) =
       [(BuildFQName namespace "" "up", []);
        (BuildFQName namespace "" "initialized", []);
        (BuildFQName namespace "" "sealed", []);
        (BuildFQName namespace "" "standby", []);
        (BuildFQName namespace "" "version", ["version"]);
        (BuildFQName namespace "" "cluster_name", ["cluster_name"]);
        (BuildFQName namespace "" "cluster_id", ["cluster_id"])]
  /\ map fqName (described s) =
       ["vault_up"; "vault_initialized"; "vault_sealed"; "vault_standby";
        "vault_version"; "vault_cluster_name"; "vault_cluster_id"]
  /\ (forall s' : State,
        vars s' = package_vars -> described s' = described s)
  /\ (forall s' : State, Reachable s' -> described s' = described s)
  /\ (forall (env : Env) (e : Exporter) (ch' : list Desc),
        Describe (registration_state env e) ch' =
          {| result := Returns tt; state := registration_state env e;
             chan := (ch' ++ described s)%list |}).
Proof.
  intros Hv.
  assert (Hd : forall t, vars t = package_vars -> described t = catalog).
  { intros t Ht. unfold described. rewrite (Describe_run t [] Ht).
    reflexivity. }
  split; [exact (Describe_run s ch Hv) |].
  rewrite (Hd s Hv). repeat split.
  - intros s' Hv'. exact (Hd s' Hv').
  - intros s' Hr'. exact (Hd s' (Reachable_vars s' Hr')).
  - intros env e ch'. exact (Describe_run (registration_state env e) ch'
                               eq_refl).
Qed.

Lemma Describe_fixed_catalog_witness :
  described (state (Collect upstream_refused state_default [])) =
  described (registration_state env_default
               {| client := {| Address := "https://127.0.0.1:8200" |} |}) /\
  described state_default =
  described (registration_state env_default
               {| client := {| Address := "https://127.0.0.1:8200" |} |}) /\
  length (described (registration_state env_default
               {| client := {| Address := "https://127.0.0.1:8200" |} |})) = 7.
Proof.
  pose proof (Describe_fixed_catalog
                (registration_state env_default
                   {| client := {| Address := "https://127.0.0.1:8200" |} |})
                [] eq_refl) as (_ & Hlen & _ & _ & _ & Hsame & _).
  split; [| split; [| exact Hlen]].
  - apply Hsame. apply reach_Collect. exact Reachable_state_default.
  - apply Hsame. exact Reachable_state_default.
Defined.

(** C4: on a successful scrape the samples [vault_initialized],
    [vault_sealed] and [vault_standby] carry the booleans of the snapshot:
    value 1 where the field is true, value 0 where it is false (and the two
    values differ). *)
Theorem Collect_boolean_mapping (s : State) (w : Upstream)
    (health : HealthResponse) :
  Reachable s ->
  query s w = inl health ->
  option_map val (sample_of "vault_initialized" (scrape w s)) =
    Some (if Initialized health then 1%float else 0%float)
  /\ option_map val (sample_of "vault_sealed" (scrape w s)) =
    Some (if Sealed health then 1%float else 0%float)
  /\ option_map val (sample_of "vault_standby" (scrape w s)) =
    Some (if Standby health then 1%float else 0%float)
  /\ option_map labelPairs (sample_of "vault_initialized" (scrape w s)) = Some []
  /\ option_map labelPairs (sample_of "vault_sealed" (scrape w s)) = Some []
  /\ option_map labelPairs (sample_of "vault_standby" (scrape w s)) = Some []
  /\ bool2float true = 1%float
  /\ bool2float false = 0%float
  /\ 1%float <> 0%float.
Proof.
  intros Hr Hw. rewrite (scrape_spec w s Hr), Hw.
  repeat split. exact one_ne_zero.
Qed.

Lemma Collect_boolean_mapping_witness :
  query state_default upstream_healthy = inl health_example /\
  option_map val (sample_of "vault_initialized"
                    (scrape upstream_healthy state_default)) = Some 1%float /\
  option_map val (sample_of "vault_sealed"
                    (scrape upstream_healthy state_default)) = Some 0%float /\
  option_map val (sample_of "vault_standby"
                    (scrape upstream_healthy state_default)) = Some 1%float.
Proof.
  pose proof (Collect_boolean_mapping state_default upstream_healthy
                health_example Reachable_state_default eq_refl)
    as (Hi & Hse & Hst & _).
  split; [reflexivity | split; [exact Hi | split; [exact Hse | exact Hst]]].
Defined.

(** C5: on a successful scrape the samples [vault_version],
    [vault_cluster_name] and [vault_cluster_id] have value 1 and one label
    each, whose value is the snapshot's version, cluster name and cluster id,
    whatever strings these are. *)
Theorem Collect_label_carriage (s : State) (w : Upstream)
    (health : HealthResponse) :
  Reachable s ->
  query s w = inl health ->
  option_map val (sample_of "vault_version" (scrape w s)) = Some 1%float
  /\ option_map labelPairs (sample_of "vault_version" (scrape w s)) =
       Some [("version", Version health)]
  /\ option_map val (sample_of "vault_cluster_name" (scrape w s)) = Some 1%float
  /\ option_map labelPairs (sample_of "vault_cluster_name" (scrape w s)) =
       Some [("cluster_name", ClusterName health)]
  /\ option_map val (sample_of "vault_cluster_id" (scrape w s)) = Some 1%float
  /\ option_map labelPairs (sample_of "vault_cluster_id" (scrape w s)) =
       Some [("cluster_id", ClusterID health)].
Proof.
  intros Hr Hw. rewrite (scrape_spec w s Hr), Hw.
  repeat split.
Qed.

Lemma Collect_label_carriage_witness :
  query state_default upstream_healthy = inl health_example /\
  option_map labelPairs (sample_of "vault_version"
      (scrape upstream_healthy state_default)) = Some [("version", "1.2.3")] /\
  option_map labelPairs (sample_of "vault_cluster_name"
      (scrape upstream_healthy state_default)) =
    Some [("cluster_name", "prod-a")] /\
  option_map labelPairs (sample_of "vault_cluster_id"
      (scrape upstream_healthy state_default)) = Some [("cluster_id", "abc-1")].
Proof.
  pose proof (Collect_label_carriage state_default upstream_healthy
                health_example Reachable_state_default eq_refl)
    as (_ & Hv & _ & Hn & _ & Hi).
  split; [reflexivity | split; [exact Hv | split; [exact Hn | exact Hi]]].
Defined.

(** ** Repetition and order *)

(** C6: two consecutive [Collect] calls against an upstream that gives the
    same answer both times, a snapshot or a failure, send equal sample
    sequences: the same descriptors, values and label values in the same
    positions. *)
Theorem Collect_idempotent (s : State) (w1 w2 : Upstream) :
  Reachable s ->
  query s w2 = query s w1 ->
  let first := Collect w1 s [] in
  let second := Collect w2 (state first) [] in
  chan second = chan first
  /\ map desc (chan second) = map desc (chan first)
  /\ map val (chan second) = map val (chan first)
  /\ map labelValues (chan second) = map labelValues (chan first)
  /\ result second = result first.
Proof.
  intros Hr Hq first second.
  assert (Hr1 : Reachable (state first)) by (apply reach_Collect; exact Hr).
  destruct (Collect_run w1 s [] (Reachable_vars s Hr)) as (Hres1 & Hch1 & _ & He1).
  destruct (Collect_run w2 (state first) [] (Reachable_vars _ Hr1))
    as (Hres2 & Hch2 & _ & _).
  fold first in Hres1, Hch1, He1. fold second in Hres2, Hch2.
  assert (Heq : chan second = chan first).
  { rewrite Hch2, Hch1. unfold query. rewrite He1.
    fold (query s w2). rewrite Hq. reflexivity. }
  rewrite Heq, Hres1, Hres2. repeat split.
Qed.

Lemma Collect_idempotent_witness :
  chan (Collect upstream_healthy
          (state (Collect upstream_healthy state_default [])) []) =
  chan (Collect upstream_healthy state_default []) /\
  chan (Collect upstream_500
          (state (Collect upstream_500 state_default [])) []) =
  chan (Collect upstream_500 state_default []).
Proof.
  split.
  - exact (proj1 (Collect_idempotent state_default upstream_healthy
                    upstream_healthy Reachable_state_default eq_refl)).
  - exact (proj1 (Collect_idempotent state_default upstream_500
                    upstream_500 Reachable_state_default eq_refl)).
Defined.

(** C7: on every successful scrape the samples come in catalog order, up,
    initialized, sealed, standby, version, cluster_name, cluster_id; the
    order is the same on every call and is the order in which [Describe]
    sends the descriptors. *)
Theorem Collect_catalog_order (s : State) (w : Upstream)
    (health : HealthResponse) :
  Reachable s ->
  query s w = inl health ->
  map (fun m => fqName (desc m)) (scrape w s) =
    ["vault_up"; "vault_initialized"; "vault_sealed"; "vault_standby";
     "vault_version"; "vault_cluster_name"; "vault_cluster_id"]
  /\ map desc (scrape w s) = described s
  /\ forall (s' : State) (w' : Upstream) (health' : HealthResponse),
       Reachable s' -> query s' w' = inl health' ->
       map desc (scrape w' s') = map desc (scrape w s)
       /\ map desc (scrape w' s') = described s.
Proof.
  intros Hr Hw.
  assert (Hd : described s = catalog).
  { unfold described. rewrite (Describe_run s [] (Reachable_vars s Hr)).
    reflexivity. }
  assert (Hm : forall t v h, Reachable t -> query t v = inl h ->
                 map desc (scrape v t) = catalog).
  { intros t v h Ht Hv. rewrite (scrape_spec v t Ht), Hv. reflexivity. }
  split; [| split].
  - rewrite (scrape_spec w s Hr), Hw. reflexivity.
  - rewrite Hd. exact (Hm s w health Hr Hw).
  - intros s' w' health' Hr' Hw'.
    rewrite (Hm s' w' health' Hr' Hw'), (Hm s w health Hr Hw), Hd.
    split; reflexivity.
Qed.

Lemma Collect_catalog_order_witness :
  query state_default upstream_healthy = inl health_example /\
  map desc (scrape upstream_healthy state_default) = described state_default /\
  map desc (scrape upstream_blank state_default) =
  map desc (scrape upstream_healthy state_default).
Proof.
  pose proof (Collect_catalog_order state_default upstream_healthy
                health_example Reachable_state_default eq_refl)
    as (_ & Hd & Hsame).
  split; [reflexivity | split; [exact Hd |]].
  exact (proj1 (Hsame state_default upstream_blank health_blank
                  Reachable_state_default eq_refl)).
Defined.

(** ** Frame and totality *)

(** The panic branch of [MustNewConstMetric] is a real one: a call that
    leaves out the label value of [vault_version] panics. *)
Example MustNewConstMetric_panics :
  result (MustNewConstMetric (S := State) (T := Metric)
            desc_version GaugeValue 1%float [] state_default []) =
  Panics "inconsistent label cardinality".
Proof. reflexivity. Qed.

(** C9: neither [Collect] nor [Describe] writes a field of the exporter or a
    package-level descriptor: after every call the exporter, its client and
    the seven descriptors are what they were, and [Describe] leaves the whole
    state alone; the samples of a scrape are a function of the upstream's
    answer only, so two scrapes that get the same answer send the same
    samples, whatever happened before them. *)
Theorem Collect_Describe_frame (s : State) (w : Upstream)
    (chm : list Metric) (chd : list Desc) :
  Reachable s ->
  exporter (state (Collect w s chm)) = exporter s
  /\ client (exporter (state (Collect w s chm))) = client (exporter s)
  /\ vars (state (Collect w s chm)) = vars s
  /\ state (Describe s chd) = s
  /\ vars s = package_vars
  /\ scrape w s = spec_collect (query s w)
  /\ forall (s' : State) (w' : Upstream),
       Reachable s' -> query s' w' = query s w -> scrape w' s' = scrape w s.
Proof.
  intros Hr. pose proof (Reachable_vars s Hr) as Hv.
  destruct (Collect_run w s chm Hv) as (_ & _ & Hvars & Hexp).
  rewrite Hexp, Hvars, (Describe_run s chd Hv).
  repeat split; try assumption.
  - exact (scrape_spec w s Hr).
  - intros s' w' Hr' Hq.
    rewrite (scrape_spec w' s' Hr'), (scrape_spec w s Hr), Hq. reflexivity.
Qed.

Lemma Collect_Describe_frame_witness :
  exporter (state (Collect upstream_refused state_default [])) =
    exporter state_default /\
  vars (state (Collect upstream_refused state_default [])) = package_vars /\
  scrape upstream_healthy (state (Collect upstream_refused state_default [])) =
    scrape upstream_healthy state_default.
Proof.
  pose proof (Collect_Describe_frame state_default upstream_refused [] []
                Reachable_state_default) as (He & _ & Hv & _ & _ & _ & _).
  pose proof (Collect_Describe_frame state_default upstream_healthy [] []
                Reachable_state_default) as (_ & _ & _ & _ & _ & _ & Hsame).
  split; [exact He | split; [exact Hv |]].
  apply Hsame; [| reflexivity].
  apply reach_Collect. exact Reachable_state_default.
Defined.

(** C10: [Collect] never panics: every sample it builds has as many label
    values as its descriptor has variable label keys, none for [vault_up],
    [vault_initialized], [vault_sealed] and [vault_standby], one for
    [vault_version], [vault_cluster_name] and [vault_cluster_id], so each
    [MustNewConstMetric] call succeeds, for every snapshot and every error,
    empty strings included. *)
Theorem Collect_never_panics (s : State) (w : Upstream) (ch : list Metric) :
  Reachable s ->
  result (Collect w s ch) = Returns tt
  /\ Forall (fun m => length (labelValues m) = length (variableLabels (desc m)))
       (scrape w s)
  /\ Forall (fun m => NewConstMetric (desc m) (valType m) (val m)
                        (labelValues m) = inl m)
       (scrape w s)
  /\ map (fun d => (fqName d, length (variableLabels d))) (described s) =
       [("vault_up", 0); ("vault_initialized", 0); ("vault_sealed", 0);
        ("vault_standby", 0); ("vault_version", 1);
        ("vault_cluster_name", 1); ("vault_cluster_id", 1)]
  /\ map (fun m => (fqName (desc m), length (labelValues m))) (scrape w s) =
       match query s w with
       | inl _ =>
           [("vault_up", 0); ("vault_initialized", 0); ("vault_sealed", 0);
            ("vault_standby", 0); ("vault_version", 1);
            ("vault_cluster_name", 1); ("vault_cluster_id", 1)]
       | inr _ => [("vault_up", 0)]
       end.
Proof.
  intros Hr. pose proof (Reachable_vars s Hr) as Hv.
  destruct (Collect_run w s ch Hv) as (Hres & _).
  unfold described. rewrite (Describe_run s [] Hv).
  rewrite (scrape_spec w s Hr).
  split; [exact Hres |].
  destruct (query s w) as [h|err]; cbn [spec_collect];
    repeat split; repeat constructor.
Qed.

Lemma Collect_never_panics_witness :
  result (Collect upstream_blank state_default []) = Returns tt /\
  result (Collect upstream_refused state_default []) = Returns tt /\
  map labelValues (scrape upstream_blank state_default) =
    [[]; []; []; []; [""]; [""]; [""]].
Proof.
  split; [| split].
  - exact (proj1 (Collect_never_panics state_default upstream_blank []
                    Reachable_state_default)).
  - exact (proj1 (Collect_never_panics state_default upstream_refused []
                    Reachable_state_default)).
  - reflexivity.
Defined.

(** ** Startup *)

Lemma http_Handle_inl (pattern : string) (mux m : list string) :
  http_Handle pattern mux = inl m -> m = (mux ++ [pattern])%list.
Proof.
  unfold http_Handle.
  destruct (String.eqb pattern ""); [discriminate |].
  destruct (existsb (String.eqb pattern) mux); [discriminate |].
  intros H. injection H as <-. reflexivity.
Qed.

Lemma http_Handle_inr (pattern : string) (mux : list string) (v : string) :
  http_Handle pattern mux = inr v -> pattern = "" \/ In pattern mux.
Proof.
  unfold http_Handle.
  destruct (String.eqb_spec pattern "") as [E|_]; [intros _; left; exact E |].
  destruct (existsb (String.eqb pattern) mux) eqn:Ex; [| discriminate].
  intros _. right. apply existsb_exists in Ex. destruct Ex as (x & Hin & Hx).
  apply String.eqb_eq in Hx. subst x. exact Hin.
Qed.

(** C8, as stated, fails: under [env_in_use] the client is built and
    [NewExporter] returns the exporter without an error, and the process
    still exits fatally, on the error [http.ListenAndServe] returned. *)
Lemma main_fatal_with_client_built :
  NewExporter (newClient env_in_use) =
    inl {| client := {| Address := "https://127.0.0.1:8200" |} |}
  /\ main env_in_use =
    Exited 1
      [{| log.level := log.InfoLevel;
          log.message :=
            "Starting vault_exporter (version=, branch=, revision=)" |};
       {| log.level := log.InfoLevel;
          log.message := "Build context (go=go1.9, user=, date=)" |};
       {| log.level := log.InfoLevel; log.message := "Listening on :9107" |};
       {| log.level := log.FatalLevel;
          log.message := "listen tcp :9107: bind: address already in use" |}].
Proof. split; reflexivity. Qed.

(** C8, amended: [NewExporter] returns an error exactly when the
    construction of the Vault client failed, the same error, and otherwise
    an exporter holding the client that was built.  [main] exits with
    status 1 on that error before it registers or serves anything; once the
    client is built it exits only on the error [http.ListenAndServe]
    returns, panics only on a metrics path that is empty or already routed,
    and otherwise serves with that exporter.  No [Describe] or [Collect] call
    ends the process: both return normally in every state the serving
    process can be in, whatever the upstream answers. *)
Theorem NewExporter_and_fatal_exits (env : Env) (s : State) (w : Upstream)
    (chm : list Metric) (chd : list Desc) :
  Reachable s ->
  match newClient env with
  | inr err =>
      NewExporter (newClient env) = inr err
      /\ main env =
           Exited 1 (startup_log env ++
             [{| log.level := log.FatalLevel; log.message := Error err |}])%list
  | inl cl =>
      NewExporter (newClient env) = inl {| client := cl |}
      /\ match main env with
         | Exited code lg =>
             code = 1%Z
             /\ exists err, listenAndServe env = Some err
                  /\ lg = (startup_log env ++
                      [{| log.level := log.InfoLevel;
                          log.message := "Listening on " ++ listenAddress env |};
                       {| log.level := log.FatalLevel;
                          log.message := Error err |}])%list
         | Panicked _ _ =>
             In (metricsPath env) ("" :: "/" :: DefaultServeMux)
         | Serving s0 _ _ =>
             exporter s0 = {| client := cl |}
             /\ vars s0 = package_vars
             /\ listenAndServe env = None
         end
  end
  /\ result (Collect w s chm) = Returns tt
  /\ result (Describe s chd) = Returns tt.
Proof.
  intros Hr. pose proof (Reachable_vars s Hr) as Hv.
  split; [| split].
  - unfold main, NewExporter.
    destruct (newClient env) as [cl|err]; [| split; reflexivity].
    split; [reflexivity |].
    rewrite Register_Describe by reflexivity. cbv beta iota.
    destruct (http_Handle (metricsPath env) DefaultServeMux) as [m1|v1] eqn:H1.
    + apply http_Handle_inl in H1. subst m1.
      destruct (http_Handle "/" (DefaultServeMux ++ [metricsPath env]))
        as [m2|v2] eqn:H2.
      * cbv zeta. cbn [vars exporter logged].
        destruct (listenAndServe env) as [err|].
        -- split; [reflexivity |]. exists err. split; reflexivity.
        -- repeat split.
      * apply http_Handle_inr in H2. destruct H2 as [H2|H2]; [discriminate |].
        apply in_app_or in H2. destruct H2 as [H2|[H2|[]]].
        -- cbn in H2. repeat (destruct H2 as [H2|H2]; [discriminate |]).
           contradiction.
        -- right. left. symmetry. exact H2.
    + apply http_Handle_inr in H1. destruct H1 as [H1|H1].
      * left. symmetry. exact H1.
      * right. right. exact H1.
  - exact (proj1 (Collect_run w s chm Hv)).
  - rewrite (Describe_run s chd Hv). reflexivity.
Qed.

Lemma NewExporter_and_fatal_exits_witness :
  NewExporter (newClient env_misconfigured) = inr err_config /\
  main env_misconfigured =
    Exited 1
      [{| log.level := log.InfoLevel;
          log.message :=
            "Starting vault_exporter (version=, branch=, revision=)" |};
       {| log.level := log.InfoLevel;
          log.message := "Build context (go=go1.9, user=, date=)" |};
       {| log.level := log.FatalLevel;
          log.message := "parse %zz: invalid URL escape" |}] /\
  result (Collect upstream_refused state_default []) = Returns tt /\
  result (Describe state_default []) = Returns tt.
Proof.
  pose proof (NewExporter_and_fatal_exits env_misconfigured state_default
                upstream_refused [] [] Reachable_state_default)
    as ((Hnew & Hmain) & Hc & Hd).
  split; [exact Hnew | split; [exact Hmain | split; [exact Hc | exact Hd]]].
Defined.

(** ** Further properties of the adapter *)

Lemma described_catalog (s : State) : Reachable s -> described s = catalog.
Proof.
  intros Hr. unfold described.
  rewrite (Describe_run s [] (Reachable_vars s Hr)). reflexivity.
Qed.

(** X1: every sample [Collect] sends, on a successful and on a failed scrape
    alike, carries one of the descriptors [Describe] sends: the adapter never
    collects a metric it has not described. *)
Theorem Collect_sends_only_described (s : State) (w : Upstream) :
  Reachable s ->
  Forall (fun m => In (desc m) (described s)) (scrape w s).
Proof.
  intros Hr. rewrite (described_catalog s Hr), (scrape_spec w s Hr).
  destruct (query s w) as [h|err]; cbn [spec_collect];
    repeat (apply Forall_cons; [cbn; auto 10 |]); apply Forall_nil.
Qed.

Lemma Collect_sends_only_described_witness :
  Forall (fun m => In (desc m) (described state_default))
    (scrape upstream_refused state_default) /\
  Forall (fun m => In (desc m) (described state_default))
    (scrape upstream_healthy state_default).
Proof.
  split.
  - exact (Collect_sends_only_described state_default upstream_refused
             Reachable_state_default).
  - exact (Collect_sends_only_described state_default upstream_healthy
             Reachable_state_default).
Defined.

(** X2: no metric name occurs twice in a scrape, and none occurs twice among
    the descriptors: a scrape never holds two samples of one metric. *)
Theorem Collect_names_distinct (s : State) (w : Upstream) :
  Reachable s ->
  NoDup (map (fun m => fqName (desc m)) (scrape w s))
  /\ NoDup (map fqName (described s)).
Proof.
  intros Hr. rewrite (described_catalog s Hr), (scrape_spec w s Hr).
  split.
  - destruct (query s w) as [h|err]; cbn [spec_collect map].
    + change (NoDup (map fqName catalog)).
      assert (H : nodup string_dec (map fqName catalog) = map fqName catalog)
        by reflexivity.
      rewrite <- H. apply NoDup_nodup.
    + repeat constructor. intros [].
  - assert (H : nodup string_dec (map fqName catalog) = map fqName catalog)
      by reflexivity.
    rewrite <- H. apply NoDup_nodup.
Qed.

Lemma Collect_names_distinct_witness :
  NoDup (map (fun m => fqName (desc m))
           (scrape upstream_healthy state_default)).
Proof.
  exact (proj1 (Collect_names_distinct state_default upstream_healthy
                  Reachable_state_default)).
Defined.

(** X3: every sample of every scrape is a gauge whose value is 0 or 1;
    [Collect] never sends a counter, an untyped sample or any other
    number. *)
Theorem Collect_gauges_zero_or_one (s : State) (w : Upstream) :
  Reachable s ->
  Forall (fun m => valType m = GaugeValue
                   /\ (val m = 0%float \/ val m = 1%float))
    (scrape w s).
Proof.
  intros Hr. rewrite (scrape_spec w s Hr).
  destruct (query s w) as [h|err]; cbn [spec_collect].
  - destruct (Initialized h), (Sealed h), (Standby h);
      repeat (apply Forall_cons; [cbn; auto |]); apply Forall_nil.
  - repeat (apply Forall_cons; [cbn; auto |]); apply Forall_nil.
Qed.

Lemma Collect_gauges_zero_or_one_witness :
  Forall (fun m => valType m = GaugeValue
                   /\ (val m = 0%float \/ val m = 1%float))
    (scrape upstream_healthy state_default).
Proof.
  exact (Collect_gauges_zero_or_one state_default upstream_healthy
           Reachable_state_default).
Defined.

Lemma bool_gauge_inj (a b : bool) :
  (if a then 1%float else 0%float) = (if b then 1%float else 0%float) ->
  a = b.
Proof.
  destruct a, b; intros H; try reflexivity.
  - destruct (one_ne_zero H).
  - destruct (one_ne_zero (eq_sym H)).
Qed.

(** X4: a scrape tells what the upstream answered: two scrapes with the same
    samples come from the same snapshot, field by field, or are both failed
    scrapes; a failed scrape is never mistaken for a successful one, and no
    two snapshots share their samples. *)
Theorem scrape_determines_answer (s : State) (w1 w2 : Upstream) :
  Reachable s ->
  scrape w1 s = scrape w2 s ->
  match query s w1, query s w2 with
  | inl h1, inl h2 => h1 = h2
  | inr _, inr _ => True
  | _, _ => False
  end.
Proof.
  intros Hr. rewrite (scrape_spec w1 s Hr), (scrape_spec w2 s Hr).
  destruct (query s w1) as [h1|e1], (query s w2) as [h2|e2];
    cbn [spec_collect]; intros H; try discriminate H; [| exact I].
  injection H as Hi Hs Hb Hv Hn Hc.
  apply bool_gauge_inj in Hi, Hs, Hb.
  destruct h1, h2. cbn in *. subst. reflexivity.
Qed.

Lemma scrape_determines_answer_witness :
  scrape upstream_healthy state_default <> scrape upstream_blank state_default
  /\ scrape upstream_healthy state_default <>
     scrape upstream_refused state_default.
Proof.
  split; intros H.
  - pose proof (scrape_determines_answer state_default upstream_healthy
                  upstream_blank Reachable_state_default H) as E.
    cbn in E. discriminate E.
  - exact (scrape_determines_answer state_default upstream_healthy
             upstream_refused Reachable_state_default H).
Defined.

(** ** Runs of scrapes and the log *)

Lemma Collect_logged (w : Upstream) (s : State) (ch : list Metric) :
  Reachable s ->
  logged (state (Collect w s ch)) =
  (logged s ++ match query s w with
               | inr err => [failure_line err]
               | inl _ => []
               end)%list.
Proof.
  intros Hr. pose proof (Reachable_vars s Hr) as Hv.
  destruct (query s w) as [h|err] eqn:Hw.
  - rewrite (Collect_run_success w s ch h Hv Hw). cbn. rewrite app_nil_r.
    reflexivity.
  - rewrite (Collect_run_failure w s ch err Hv Hw). reflexivity.
Qed.

Lemma failures_exporter (ws : list Upstream) (s s' : State) :
  exporter s' = exporter s -> failures ws s' = failures ws s.
Proof.
  intros He. unfold failures, query. rewrite He. reflexivity.
Qed.

(** X5: over any run of scrapes the log grows by exactly one error line per
    failed scrape, in the order of the scrapes and with that scrape's error
    message; successful scrapes log nothing; the exporter and the
    descriptors are the same after the run. *)
Theorem scrapes_log (ws : list Upstream) (s : State) :
  Reachable s ->
  logged (scrapes ws s) =
    (logged s ++ map failure_line (failures ws s))%list
  /\ length (logged (scrapes ws s)) =
       length (logged s) + length (failures ws s)
  /\ exporter (scrapes ws s) = exporter s
  /\ vars (scrapes ws s) = vars s
  /\ Reachable (scrapes ws s).
Proof.
  revert s. induction ws as [| w ws IH]; intros s Hr.
  - cbn. rewrite app_nil_r, Nat.add_0_r. repeat split. exact Hr.
  - pose proof (Reachable_vars s Hr) as Hv.
    destruct (Collect_run w s [] Hv) as (_ & _ & Hvars & Hexp).
    assert (Hr1 : Reachable (state (Collect w s [])))
      by (apply reach_Collect; exact Hr).
    destruct (IH _ Hr1) as (Hlog & _ & He & Hva & Hre).
    assert (Hl : logged (scrapes (w :: ws) s) =
                 (logged s ++ map failure_line (failures (w :: ws) s))%list).
    { cbn [scrapes]. rewrite Hlog, (Collect_logged w s [] Hr).
      rewrite (failures_exporter ws s _ Hexp).
      unfold failures at 2. cbn [flat_map]. fold (failures ws s).
      rewrite map_app, <- app_assoc. f_equal. f_equal.
      destruct (query s w); reflexivity. }
    split; [exact Hl |]. split; [| split; [| split]].
    + rewrite Hl, length_app, length_map. reflexivity.
    + cbn [scrapes]. rewrite He. exact Hexp.
    + cbn [scrapes]. rewrite Hva. exact Hvars.
    + exact Hre.
Qed.

Lemma scrapes_log_witness :
  logged (scrapes [upstream_healthy; upstream_refused; upstream_blank;
                   upstream_500] state_default) =
  (logged state_default ++
     [failure_line err_refused; failure_line err_status])%list.
Proof.
  exact (proj1 (scrapes_log [upstream_healthy; upstream_refused;
                             upstream_blank; upstream_500]
                  state_default Reachable_state_default)).
Defined.

(** X6: [Collect] and [Describe] only append to the channel they are handed:
    what it already holds stays in front, in order, and neither the values
    appended nor the state left nor the outcome depend on it. *)
Theorem Collect_Describe_append_only (s : State) (w : Upstream)
    (chm : list Metric) (chd : list Desc) :
  Reachable s ->
  chan (Collect w s chm) = (chm ++ scrape w s)%list
  /\ state (Collect w s chm) = state (Collect w s [])
  /\ result (Collect w s chm) = result (Collect w s [])
  /\ chan (Describe s chd) = (chd ++ described s)%list
  /\ state (Describe s chd) = state (Describe s [])
  /\ result (Describe s chd) = result (Describe s []).
Proof.
  intros Hr. pose proof (Reachable_vars s Hr) as Hv.
  unfold described. rewrite !(Describe_run s _ Hv). cbn [chan state result].
  rewrite (scrape_spec w s Hr). unfold scrape.
  destruct (query s w) as [h|err] eqn:Hw.
  - rewrite !(Collect_run_success w s _ h Hv Hw). repeat split.
  - rewrite !(Collect_run_failure w s _ err Hv Hw). repeat split.
Qed.

Lemma Collect_Describe_append_only_witness :
  chan (Collect upstream_refused state_default
          (scrape upstream_healthy state_default)) =
  (scrape upstream_healthy state_default ++
   scrape upstream_refused state_default)%list.
Proof.
  exact (proj1 (Collect_Describe_append_only state_default upstream_refused
                  (scrape upstream_healthy state_default) []
                  Reachable_state_default)).
Defined.

(** ** The outcomes of [main] *)

Lemma existsb_eqb_In (p : string) (l : list string) :
  existsb (String.eqb p) l = true <-> In p l.
Proof.
  rewrite existsb_exists. split.
  - intros (x & Hin & Hx). apply String.eqb_eq in Hx. subst x. exact Hin.
  - intros Hin. exists p. split; [exact Hin | apply String.eqb_refl].
Qed.


Lemma http_Handle_taken (p : string) (mux : list string) :
  p <> "" -> In p mux ->
  http_Handle p mux = inr ("http: multiple registrations for " ++ p).
Proof.
  intros Hne Hin. unfold http_Handle.
  destruct (String.eqb_spec p "") as [E|_]; [contradiction |].
  apply existsb_eqb_In in Hin. rewrite Hin. reflexivity.
Qed.

Lemma root_not_pprof : ~ In "/" DefaultServeMux.
Proof.
  cbn. intros H. repeat (destruct H as [H|H]; [discriminate H |]). exact H.
Qed.

(** X7: once the client is built, [main] panics exactly when the metrics
    path is empty, is the root path (which [main] routes itself right after)
    or is a route package initialisers have installed: one of the profiling
    routes or [/debug/vars].  It panics before it logs that it listens and
    before it listens, with the message of the route registration that
    failed. *)
Theorem main_panics_on_taken_path (env : Env) (cl : Client) :
  newClient env = inl cl ->
  (metricsPath env = "" ->
     main env = Panicked "http: invalid pattern" (startup_log env))
  /\ (In (metricsPath env) ("/" :: DefaultServeMux) ->
     main env =
       Panicked ("http: multiple registrations for " ++ metricsPath env)
         (startup_log env))
  /\ (forall v lg, main env = Panicked v lg ->
     In (metricsPath env) ("" :: "/" :: DefaultServeMux)
     /\ lg = startup_log env).
Proof.
  intros Hc. unfold main, NewExporter. rewrite Hc.
  rewrite Register_Describe by reflexivity. cbv beta iota.
  split; [| split].
  - intros E. rewrite E. reflexivity.
  - intros [E|Hin].
    + rewrite <- E. reflexivity.
    + assert (Hne : metricsPath env <> "").
      { intros E. rewrite E in Hin. cbn in Hin.
        repeat (destruct Hin as [Hin|Hin]; [discriminate Hin |]).
        exact Hin. }
      rewrite (http_Handle_taken _ _ Hne Hin). reflexivity.
  - intros v lg.
    destruct (http_Handle (metricsPath env) DefaultServeMux)
      as [m1|v1] eqn:H1.
    + apply http_Handle_inl in H1. subst m1.
      destruct (http_Handle "/" (DefaultServeMux ++ [metricsPath env]))
        as [m2|v2] eqn:H2.
      * cbv zeta. destruct (listenAndServe env); discriminate.
      * intros H. injection H as _ <-. split; [| reflexivity].
        apply http_Handle_inr in H2. destruct H2 as [H2|H2]; [discriminate |].
        apply in_app_or in H2. destruct H2 as [H2|[H2|[]]].
        -- destruct (root_not_pprof H2).
        -- right. left. symmetry. exact H2.
    + intros H. injection H as _ <-. split; [| reflexivity].
      apply http_Handle_inr in H1. destruct H1 as [H1|H1].
      * left. symmetry. exact H1.
      * right. right. exact H1.
Qed.

Lemma main_panics_on_taken_path_witness :
  main {| listenAddress := ":9107"; metricsPath := "/";
          versionInfo := ""; buildContext := "";
          newClient := inl {| Address := "https://127.0.0.1:8200" |};
          listenAndServe := None |} =
  Panicked "http: multiple registrations for /"
    [{| log.level := log.InfoLevel;
        log.message := "Starting vault_exporter " |};
     {| log.level := log.InfoLevel; log.message := "Build context " |}]
  /\
  main {| listenAddress := ":9107"; metricsPath := "/debug/vars";
          versionInfo := ""; buildContext := "";
          newClient := inl {| Address := "https://127.0.0.1:8200" |};
          listenAndServe := None |} =
  Panicked "http: multiple registrations for /debug/vars"
    [{| log.level := log.InfoLevel;
        log.message := "Starting vault_exporter " |};
     {| log.level := log.InfoLevel; log.message := "Build context " |}].
Proof.
  split.
  - apply (proj1 (proj2 (main_panics_on_taken_path
             {| listenAddress := ":9107"; metricsPath := "/";
                versionInfo := ""; buildContext := "";
                newClient := inl {| Address := "https://127.0.0.1:8200" |};
                listenAndServe := None |}
             {| Address := "https://127.0.0.1:8200" |} eq_refl))).
    left. reflexivity.
  - apply (proj1 (proj2 (main_panics_on_taken_path
             {| listenAddress := ":9107"; metricsPath := "/debug/vars";
                versionInfo := ""; buildContext := "";
                newClient := inl {| Address := "https://127.0.0.1:8200" |};
                listenAndServe := None |}
             {| Address := "https://127.0.0.1:8200" |} eq_refl))).
    cbn. auto 10.
Defined.




Lemma main_Serving_state (env : Env) (s : State) (registry : Registry)
    (mux : list string) :
  main env = Serving s registry mux ->
  s = {| vars := package_vars;
         exporter := {| client := client (exporter s) |};
         logged := (startup_log env ++ [listening_line env])%list |}.
Proof.
  unfold main, NewExporter.
  destruct (newClient env) as [cl|err]; [| discriminate].
  rewrite Register_Describe by reflexivity. cbv beta iota.
  destruct (http_Handle (metricsPath env) DefaultServeMux) as [m1|v];
    [| discriminate].
  destruct (http_Handle "/" m1) as [m2|v]; [| discriminate].
  cbv zeta. destruct (listenAndServe env) as [err|]; [discriminate |].
  intros H. injection H as <- _ _. reflexivity.
Qed.

(** Every state of the serving process is a state some run of [main] went
    through after it started serving. *)
Lemma Reachable_Steps (s : State) :
  Reachable s <->
  exists env s0 registry mux, main env = Serving s0 registry mux /\ Steps s0 s.
Proof.
  split.
  - induction 1 as [env s registry mux Hmain
                   | s ch _ (env & s0 & r & m & Hm & Hs)
                   | w s ch _ (env & s0 & r & m & Hm & Hs)].
    + exists env, s, registry, mux. split; [exact Hmain | apply steps_start].
    + exists env, s0, r, m. split; [exact Hm | apply steps_Describe; exact Hs].
    + exists env, s0, r, m. split; [exact Hm | apply steps_Collect; exact Hs].
  - intros (env & s0 & r & m & Hm & Hs).
    induction Hs as [| s ch _ IH | w s ch _ IH].
    + exact (reach_main env s0 r m Hm).
    + apply reach_Describe. exact IH.
    + apply reach_Collect. exact IH.
Qed.

(** X9: in a run of [main] that ended up serving, whatever [Describe] and
    [Collect] calls came since, the exporter is still the one [main] built,
    holding the client [NewClient] returned in that run, the descriptors
    are the ones [main] started with, and the log is the log [main] left
    (the two startup lines and the line that announces the listen address)
    followed by nothing but the error lines of failed scrapes; the adapter
    never logs at the fatal level. *)
Theorem Reachable_log_shape (env : Env) (s0 s : State) (registry : Registry)
    (mux : list string) :
  main env = Serving s0 registry mux ->
  Steps s0 s ->
  newClient env = inl (client (exporter s))
  /\ exporter s = exporter s0
  /\ vars s = vars s0
  /\ logged s0 = (startup_log env ++ [listening_line env])%list
  /\ (exists errs : list error,
        logged s = (logged s0 ++ map failure_line errs)%list)
  /\ Forall (fun e => log.level e <> log.FatalLevel) (logged s).
Proof.
  intros Hmain Hs.
  destruct (main_Serving env s0 registry mux Hmain) as (_ & Hc & _).
  assert (Hl0 : logged s0 = (startup_log env ++ [listening_line env])%list).
  { rewrite (main_Serving_state env s0 registry mux Hmain) at 1.
    reflexivity. }
  assert (H : Reachable s /\ exporter s = exporter s0 /\ vars s = vars s0
              /\ exists errs : list error,
                   logged s = (logged s0 ++ map failure_line errs)%list).
  { induction Hs as [| s ch _ (Hr & He & Hv & errs & Hl)
                     | w s ch _ (Hr & He & Hv & errs & Hl)].
    - split; [exact (reach_main env s0 registry mux Hmain) |].
      split; [reflexivity | split; [reflexivity |]].
      exists []. cbn. rewrite app_nil_r. reflexivity.
    - rewrite (Describe_run s ch (Reachable_vars s Hr)). cbn [state].
      split; [exact Hr | split; [exact He | split; [exact Hv |]]].
      exists errs. exact Hl.
    - destruct (Collect_run w s ch (Reachable_vars s Hr))
        as (_ & _ & Hvars & Hexp).
      split; [apply reach_Collect; exact Hr |].
      split; [rewrite Hexp; exact He |].
      split; [rewrite Hvars; exact Hv |].
      exists (errs ++ match query s w with
                      | inr err => [err]
                      | inl _ => []
                      end)%list.
      rewrite (Collect_logged w s ch Hr), Hl, map_app, <- !app_assoc.
      do 2 f_equal. destruct (query s w); reflexivity. }
  destruct H as (_ & He & Hv & errs & Hl).
  split; [rewrite He; exact Hc |].
  split; [exact He | split; [exact Hv | split; [exact Hl0 |]]].
  split; [exists errs; exact Hl |].
  rewrite Hl, Hl0. apply Forall_app. split.
  - repeat constructor; discriminate.
  - apply Forall_map. apply Forall_forall. intros e _. discriminate.
Qed.

Lemma Reachable_log_shape_witness :
  newClient env_default =
    inl (client (exporter (scrapes [upstream_refused] state_default)))
  /\ exporter (scrapes [upstream_refused] state_default) =
       exporter state_default
  /\ logged (scrapes [upstream_refused] state_default) =
       (logged state_default ++ [failure_line err_refused])%list.
Proof.
  pose proof (Reachable_log_shape env_default state_default
                (scrapes [upstream_refused] state_default)
                (init ++ catalog)%list
                (DefaultServeMux ++ ["/metrics"; "/"])%list
                eq_refl
                (steps_Collect state_default upstream_refused state_default []
                   (steps_start state_default)))
    as (Hc & He & _).
  split; [exact Hc | split; [exact He | reflexivity]].
Defined.

(** ** mkpost *)

Lemma length_append (a b : string) :
  String.length (a ++ b) = String.length a + String.length b.
Proof.
  induction a as [| x a IH]; cbn; [reflexivity | rewrite IH; reflexivity].
Qed.

Lemma drop_line (line rest : string) (ch : ascii) :
  mkpost.drop (S (String.length line)) (line ++ String ch rest) = rest.
Proof.
  induction line as [| x line IH]; [reflexivity | exact IH].
Qed.

(** The first occurrence of a byte splits the input; without one the index
    is -1. *)
Lemma IndexByte_split (b : string) (ch : ascii) :
  mkpost.IndexByte b ch = (-1)%Z
  \/ exists line rest,
       b = line ++ String ch rest
       /\ mkpost.IndexByte line ch = (-1)%Z
       /\ mkpost.IndexByte b ch = Z.of_nat (String.length line).
Proof.
  induction b as [| a b IH]; [left; reflexivity |].
  cbn [mkpost.IndexByte].
  destruct (Ascii.eqb_spec a ch) as [E|N].
  - right. exists EmptyString, b. subst a. repeat split.
  - destruct IH as [IH|(line & rest & Hb & Hl & Hi)].
    + left. rewrite IH. reflexivity.
    + right. exists (String a line), rest. rewrite Hi.
      destruct (Z.ltb_spec (Z.of_nat (String.length line)) 0) as [Hlt|_];
        [lia |].
      split; [cbn; rewrite Hb; reflexivity | split].
      * cbn [mkpost.IndexByte].
        destruct (Ascii.eqb_spec a ch) as [E|_]; [contradiction |].
        rewrite Hl. reflexivity.
      * cbn [String.length]. lia.
Qed.

Lemma IndexByte_bounds (b : string) (ch : ascii) :
  (-1 <= mkpost.IndexByte b ch < Z.of_nat (String.length b))%Z
  \/ (mkpost.IndexByte b ch = (-1)%Z /\ b = EmptyString).
Proof.
  destruct (IndexByte_split b ch) as [Hi|(line & rest & Hb & _ & Hi)].
  - destruct b as [| a b]; [right; split; [exact Hi | reflexivity] |].
    left. rewrite Hi. cbn [String.length]. lia.
  - left. rewrite Hi, Hb, length_append. cbn [String.length]. lia.
Qed.

Lemma slice_from_in_range (b : string) (i : Z) :
  (0 <= i <= Z.of_nat (String.length b))%Z ->
  mkpost.slice_from b i = Some (mkpost.drop (Z.to_nat i) b).
Proof.
  intros Hi. unfold mkpost.slice_from.
  destruct (Z.ltb_spec i 0) as [Hlt|_]; [lia |].
  destruct (Z.ltb_spec (Z.of_nat (String.length b)) i) as [Hlt|_]; [lia |].
  reflexivity.
Qed.

(** X10: the removal of the first line never panics.  On an input without a
    newline it removes nothing ([IndexByte] gives -1 and the slice starts at
    0); otherwise it removes the bytes up to and including the first
    newline and nothing else. *)
Theorem mkpost_first_line_removed (b : string) :
  exists rest,
    mkpost.slice_from b (mkpost.IndexByte b mkpost.newline + 1) = Some rest
    /\ ((mkpost.IndexByte b mkpost.newline = (-1)%Z /\ rest = b)
        \/ exists line,
             b = line ++ String mkpost.newline rest
             /\ mkpost.IndexByte line mkpost.newline = (-1)%Z).
Proof.
  destruct (IndexByte_split b mkpost.newline)
    as [Hi|(line & rest & Hb & Hl & Hi)].
  - exists b. rewrite Hi. unfold mkpost.slice_from. cbn.
    destruct (Z.ltb_spec (Z.of_nat (String.length b)) 0) as [Hlt|_];
      [lia |].
    split; [reflexivity | left; split; reflexivity].
  - exists rest. rewrite Hi. unfold mkpost.slice_from.
    destruct (Z.ltb_spec (Z.of_nat (String.length line) + 1) 0) as [Hlt|_];
      [lia |].
    assert (Hlen : String.length b =
                   String.length line + S (String.length rest)).
    { rewrite Hb, length_append. reflexivity. }
    destruct (Z.ltb_spec (Z.of_nat (String.length b))
                (Z.of_nat (String.length line) + 1)) as [Hlt|_]; [lia |].
    cbn [orb]. split.
    + replace (Z.to_nat (Z.of_nat (String.length line) + 1))
        with (S (String.length line)) by lia.
      rewrite Hb, drop_line. reflexivity.
    + right. exists line. split; assumption.
Qed.

Lemma main_target_arch (R : string -> string -> string -> string)
    (F : string -> string + error) (env : mkpost.Env) :
  mkpost.main R F env =
  if String.eqb (mkpost.Getenv env "GOOS") "linux"
     && negb (String.eqb (mkpost.target_arch env) "sparc64")
     && negb (String.eqb (mkpost.Getenv env "GOLANG_SYS_BUILD") "docker")
  then mkpost.refusal
  else
    match mkpost.stdin env with
    | inr err =>
        {| mkpost.stdout := []; mkpost.stderr := [mkpost.Fatal err];
           mkpost.status := 1 |}
    | inl b =>
        let b := mkpost.passes R (mkpost.target_arch env)
                   (mkpost.Getenv env "GOOS") b in
        match mkpost.slice_from b
                (mkpost.IndexByte b mkpost.newline + 1) with
        | None =>
            {| mkpost.stdout := []; mkpost.stderr := [];
               mkpost.status := 2 |}
        | Some b =>
            match F (R "(cgo -godefs .*)" b
                       (mkpost.header (mkpost.target_arch env)
                          (mkpost.Getenv env "GOOS"))) with
            | inr err =>
                {| mkpost.stdout := []; mkpost.stderr := [mkpost.Fatal err];
                   mkpost.status := 1 |}
            | inl b =>
                {| mkpost.stdout := [b]; mkpost.stderr := [];
                   mkpost.status := 0 |}
            end
        end
    end.
Proof. reflexivity. Qed.

(** X11: mkpost refuses to run, writing its two-line notice to standard
    error and exiting with status 1 without reading its input, exactly when
    the target system is linux, the target architecture is not sparc64 and
    [GOLANG_SYS_BUILD] is not [docker]; whatever the input holds, no other
    run ends like that. *)
Theorem mkpost_refuses_direct_call
    (R : string -> string -> string -> string)
    (F : string -> string + error) (env : mkpost.Env) :
  mkpost.main R F env = mkpost.refusal
  <->
  mkpost.Getenv env "GOOS" = "linux"
  /\ mkpost.target_arch env <> "sparc64"
  /\ mkpost.Getenv env "GOLANG_SYS_BUILD" <> "docker".
Proof.
  rewrite main_target_arch.
  destruct (String.eqb_spec (mkpost.Getenv env "GOOS") "linux") as [Eo|No];
  destruct (String.eqb_spec (mkpost.target_arch env) "sparc64") as [Ea|Na];
  destruct (String.eqb_spec (mkpost.Getenv env "GOLANG_SYS_BUILD") "docker")
    as [Ed|Nd];
  cbn [andb negb];
  try (split; [| intros (H1 & H2 & H3); contradiction]);
  try (split; [intros _; repeat split; assumption | reflexivity]);
  (destruct (mkpost.stdin env) as [b|err]; [| discriminate];
   cbv zeta;
   destruct (mkpost.slice_from _ _) as [b'|]; [| discriminate];
   destruct (F _) as [out|err]; discriminate).
Qed.

(** X12: a run of mkpost ends with status 0 or 1, never in a panic.  It
    writes to standard output only when it succeeds, then exactly once, a
    text the formatter returned, and nothing to standard error; every failed
    run (refusal, unreadable input, text the formatter rejects) leaves
    standard output empty and says why on standard error. *)
Theorem mkpost_all_or_nothing
    (R : string -> string -> string -> string)
    (F : string -> string + error) (env : mkpost.Env) :
  (mkpost.status (mkpost.main R F env) = 0%Z
   /\ mkpost.stderr (mkpost.main R F env) = []
   /\ exists src out,
        F src = inl out /\ mkpost.stdout (mkpost.main R F env) = [out])
  \/ (mkpost.status (mkpost.main R F env) = 1%Z
      /\ mkpost.stdout (mkpost.main R F env) = []
      /\ mkpost.stderr (mkpost.main R F env) <> []).
Proof.
  rewrite main_target_arch.
  destruct (_ && _ && _); [right; repeat split; discriminate |].
  destruct (mkpost.stdin env) as [b|err];
    [| right; repeat split; discriminate].
  cbv zeta.
  rewrite slice_from_in_range.
  2:{ destruct (IndexByte_bounds
                  (mkpost.passes R (mkpost.target_arch env)
                     (mkpost.Getenv env "GOOS") b) mkpost.newline)
        as [Hb|(Hi & Hb)]; [lia | rewrite Hi, Hb; cbn; lia]. }
  destruct (F _) as [out|err] eqn:HF.
  - left. repeat split. eexists. exists out. split; [exact HF | reflexivity].
  - right. repeat split; discriminate.
Qed.

(** X13: when [GOARCH_TARGET] is set, [GOARCH] plays no part: two runs whose
    environments differ in [GOARCH] only, on the same input, end the same
    way, with the same output; and the build tag of the header names the
    target architecture. *)
Theorem mkpost_GOARCH_TARGET_overrides
    (R : string -> string -> string -> string)
    (F : string -> string + error) (env env' : mkpost.Env) :
  mkpost.Getenv env "GOARCH_TARGET" <> "" ->
  (forall k, k <> "GOARCH" -> mkpost.Getenv env' k = mkpost.Getenv env k) ->
  mkpost.stdin env' = mkpost.stdin env ->
  mkpost.main R F env' = mkpost.main R F env
  /\ mkpost.target_arch env' = mkpost.Getenv env "GOARCH_TARGET"
  /\ mkpost.target_arch env = mkpost.Getenv env "GOARCH_TARGET".
Proof.
  intros Hset Hsame Hin.
  assert (Ht : mkpost.target_arch env = mkpost.Getenv env "GOARCH_TARGET").
  { unfold mkpost.target_arch.
    destruct (String.eqb_spec (mkpost.Getenv env "GOARCH_TARGET") "")
      as [E|_]; [contradiction | reflexivity]. }
  assert (Ht' : mkpost.target_arch env' = mkpost.Getenv env "GOARCH_TARGET").
  { unfold mkpost.target_arch.
    rewrite (Hsame "GOARCH_TARGET") by discriminate.
    destruct (String.eqb_spec (mkpost.Getenv env "GOARCH_TARGET") "")
      as [E|_]; [contradiction | reflexivity]. }
  split; [| split; assumption].
  rewrite !main_target_arch, Ht, Ht', Hin.
  rewrite (Hsame "GOOS") by discriminate.
  rewrite (Hsame "GOLANG_SYS_BUILD") by discriminate.
  reflexivity.
Qed.

Lemma getenv_cross (k : string) :
  k <> "GOARCH" ->
  mkpost.Getenv mkpost.env_cross_host k = mkpost.Getenv mkpost.env_cross k.
Proof.
  intros Hk. unfold mkpost.env_cross_host, mkpost.env_cross, mkpost.Getenv,
    mkpost.getenv_of.
  cbn [find fst snd].
  destruct (String.eqb "GOOS" k); [reflexivity |].
  destruct (String.eqb_spec "GOARCH" k) as [E|_];
    [symmetry in E; contradiction | reflexivity].
Qed.

Lemma mkpost_GOARCH_TARGET_overrides_witness :
  mkpost.main mkpost.no_match mkpost.keep mkpost.env_cross_host =
  mkpost.main mkpost.no_match mkpost.keep mkpost.env_cross
  /\ mkpost.target_arch mkpost.env_cross_host = "s390x".
Proof.
  pose proof (mkpost_GOARCH_TARGET_overrides mkpost.no_match mkpost.keep
                mkpost.env_cross mkpost.env_cross_host)
    as (Hm & Ht & _).
  - discriminate.
  - exact getenv_cross.
  - reflexivity.
  - split; [exact Hm | exact Ht].
Defined.
